(** * media-variant: breakpoint resolution

    A shallow embedding of the two screen-size providers of the repository:

    - [Richer]  follows [src/react/MediaContext.tsx];
    - [Legacy]  follows the provider that comes after the type declarations
                of [src/types.ts].

    Numbers are pixel widths.  They are modelled as [Z]; the only
    non-integer JavaScript number kept is [NaN], because it is falsy and the
    source decides between an override and its default by truthiness.
    The viewport width, which [useMediaQuery] reads from the browser, is an
    explicit argument.

    CSS pixels need not be whole.  The modules [Frac], [RicherQ] and
    [LegacyQ] read the same code over the rationals, for the properties in
    which a fractional width or threshold makes a difference. *)

From Stdlib Require Import ZArith QArith Bool List Lia Lqa.
Import ListNotations.

Local Open Scope Z_scope.

(** ** [src/types.ts]: the data model *)

(** [type ScreenSize = "xxl" | "xl" | "lg" | "md" | "sm"] *)
Module ScreenSize.

Inductive t : Type := xxl | xl | lg | md | sm.

Definition eqb (a b : t) : bool :=
  match a, b with
  | xxl, xxl | xl, xl | lg, lg | md, md | sm, sm => true
  | _, _ => false
  end.

(** Position in the order [xxl > xl > lg > md > sm]. *)
Definition rank (a : t) : nat :=
  match a with
  | sm => 0 | md => 1 | lg => 2 | xl => 3 | xxl => 4
  end%nat.

Definition all : list t := [xxl; xl; lg; md; sm].

End ScreenSize.

(** [Record<ScreenSize, T>]: one [T] per label. *)
Record PerSize (T : Type) : Type := mkPerSize
  { xxl : T; xl : T; lg : T; md : T; sm : T }.

Arguments mkPerSize {T} _ _ _ _ _.
Arguments xxl {T} _.
Arguments xl {T} _.
Arguments lg {T} _.
Arguments md {T} _.
Arguments sm {T} _.

(** Property access by label, [r[k]]. *)
Definition get {T : Type} (k : ScreenSize.t) (r : PerSize T) : T :=
  match k with
  | ScreenSize.xxl => xxl r
  | ScreenSize.xl => xl r
  | ScreenSize.lg => lg r
  | ScreenSize.md => md r
  | ScreenSize.sm => sm r
  end.

(** [type Breakpoints = Record<ScreenSize, number>] *)
Definition Breakpoints : Type := PerSize Z.

(** The flags handed to the resolver, [Record<ScreenSize, boolean>]. *)
Definition Matches : Type := PerSize bool.

(** How many of the five flags are set. *)
Definition count_true (m : Matches) : nat :=
  length (filter (fun k => get k m) ScreenSize.all).

(** The record whose only set flag is [k]. *)
Definition only (k : ScreenSize.t) : Matches :=
  {| xxl := ScreenSize.eqb k ScreenSize.xxl;
     xl := ScreenSize.eqb k ScreenSize.xl;
     lg := ScreenSize.eqb k ScreenSize.lg;
     md := ScreenSize.eqb k ScreenSize.md;
     sm := ScreenSize.eqb k ScreenSize.sm |}.

Definition none_set : Matches :=
  {| xxl := false; xl := false; lg := false; md := false; sm := false |}.

(** ** JavaScript values used by the providers *)

(** A [number].  [Num 0] and [NaN] are the falsy ones. *)
Inductive number : Type :=
  | Num (z : Z)
  | NaN.

Definition truthy (n : number) : bool :=
  match n with
  | Num z => negb (z =? 0)
  | NaN => false
  end.

(** A property that may be missing: [None] is [undefined]. *)
Definition Overrides : Type := PerSize (option number).

(** [userDefinedSizes?.k] where the [sizes] prop itself is optional. *)
Definition opt_get (k : ScreenSize.t) (userDefinedSizes : option Overrides)
  : option number :=
  match userDefinedSizes with
  | None => None
  | Some r => get k r
  end.

(** [v || d] for an optional number [v] and a numeric literal [d]. *)
Definition or_default (v : option number) (d : Z) : Z :=
  match v with
  | Some (Num z) => if z =? 0 then d else z
  | Some NaN => d
  | None => d
  end.

(** The values for which [v || d] is [d]: a missing property or a number
    that is not truthy. *)
Definition falsy (v : option number) : Prop :=
  match v with
  | None => True
  | Some n => truthy n = false
  end.

(** ** The viewport-watching capability ([react-responsive]) *)

(** The settings object passed to [useMediaQuery]. *)
Record MediaQuery : Type := mkMediaQuery
  { maxWidth : option Z; minWidth : option Z }.

(** Modelled from the spec: [useMediaQuery] belongs to [react-responsive],
    which is outside the repository.  Section 6 gives its contract as
    [watch(minWidth, maxWidth) -> currentBoolean]: the result tells whether
    the current width satisfies every bound that is given. *)
Definition useMediaQuery (q : MediaQuery) (width : Z) : bool :=
  match minWidth q with Some lo => lo <=? width | None => true end
  &&
  match maxWidth q with Some hi => width <=? hi | None => true end.

(** The five watches evaluated at the current width. *)
Definition watch (q : PerSize MediaQuery) (width : Z) : Matches :=
  {| xxl := useMediaQuery (xxl q) width;
     xl := useMediaQuery (xl q) width;
     lg := useMediaQuery (lg q) width;
     md := useMediaQuery (md q) width;
     sm := useMediaQuery (sm q) width |}.

(** Membership in the closed interval [[lo, hi]]. *)
Definition in_range (lo hi width : Z) : bool :=
  (lo <=? width) && (width <=? hi).

(** The ordering of thresholds under which the ranges tile the widths:
    [md < lg < xl < xxl <= top]. *)
Definition ordered (md_ lg_ xl_ xxl_ top : Z) : Prop :=
  md_ < lg_ /\ lg_ < xl_ /\ xl_ < xxl_ /\ xxl_ <= top.

(** ** React context *)

Record Context (T : Type) : Type := createContext { defaultValue : T }.

Arguments createContext {T} _.
Arguments defaultValue {T} _.

(** [useContext c] in a component whose enclosing providers of [c] carry the
    values [enclosing], innermost first; with none, the default is read. *)
Definition useContext {T : Type} (c : Context T) (enclosing : list T) : T :=
  hd (defaultValue c) enclosing.

(** ** The current provider, [src/react/MediaContext.tsx] *)

Module Richer.

(** lines 6-12 *)
Definition defaultSizes : Breakpoints :=
  {| xxl := 1536; xl := 1280; lg := 1024; md := 768; sm := 640 |}.

(** lines 14-18 *)
Record ScreenSizeContextType : Type := mkValue
  { screenSize : ScreenSize.t; breakpoints : Breakpoints }.

(** lines 25-28 *)
Definition ScreenSizeContext : Context ScreenSizeContextType :=
  createContext {| screenSize := ScreenSize.sm; breakpoints := defaultSizes |}.

(** lines 36-44 *)
Definition findLargestScreenSizeMatch (sizes : Matches) : ScreenSize.t :=
  if xxl sizes then ScreenSize.xxl else
  if xl sizes then ScreenSize.xl else
  if lg sizes then ScreenSize.lg else
  if md sizes then ScreenSize.md else
  ScreenSize.sm.

(** lines 50-52 *)
Definition useScreenSize (enclosing : list ScreenSizeContextType)
  : ScreenSize.t :=
  screenSize (useContext ScreenSizeContext enclosing).

(** [Number.MAX_SAFE_INTEGER] *)
Definition MAX_SAFE_INTEGER : Z := 2 ^ 53 - 1.

(** lines 72-78: the object [sizes] *)
Definition sizes_of (userDefinedSizes : option Overrides) : Breakpoints :=
  {| xxl := or_default (opt_get ScreenSize.xxl userDefinedSizes) (xxl defaultSizes);
     xl := or_default (opt_get ScreenSize.xl userDefinedSizes) (xl defaultSizes);
     lg := or_default (opt_get ScreenSize.lg userDefinedSizes) (lg defaultSizes);
     md := or_default (opt_get ScreenSize.md userDefinedSizes) (md defaultSizes);
     sm := or_default (opt_get ScreenSize.sm userDefinedSizes) (sm defaultSizes) |}.

(** lines 80-84: the settings of the five [useMediaQuery] calls *)
Definition queries (sizes : Breakpoints) : PerSize MediaQuery :=
  {| xxl := {| maxWidth := Some MAX_SAFE_INTEGER; minWidth := Some (xxl sizes) |};
     xl := {| maxWidth := Some (xxl sizes - 1); minWidth := Some (xl sizes) |};
     lg := {| maxWidth := Some (xl sizes - 1); minWidth := Some (lg sizes) |};
     md := {| maxWidth := Some (lg sizes - 1); minWidth := Some (md sizes) |};
     sm := {| maxWidth := Some (md sizes - 1); minWidth := None |} |}.

(** lines 68-93: one render at viewport width [width]; the result is the
    [value] given to [ScreenSizeContext.Provider]. *)
Definition ScreenSizeProvider
  (userDefinedSizes : option Overrides) (width : Z) : ScreenSizeContextType :=
  let sizes := sizes_of userDefinedSizes in
  let screenSize := findLargestScreenSizeMatch (watch (queries sizes) width) in
  {| screenSize := screenSize; breakpoints := sizes |}.

(** What a consumer below the provider reads. *)
Definition consumer_reads (userDefinedSizes : option Overrides) (width : Z)
  (enclosing : list ScreenSizeContextType) : ScreenSizeContextType :=
  useContext ScreenSizeContext
    (ScreenSizeProvider userDefinedSizes width :: enclosing).

End Richer.

(** ** The legacy provider, second part of [src/types.ts] *)

Module Legacy.

(** line 8 *)
Definition MAX_SAFE_INTEGER : Z := 99999.

(** lines 10-13 *)
Record ScreenSizeContextType : Type := mkValue
  { screenSize : ScreenSize.t }.

(** lines 20-22 *)
Definition ScreenSizeContext : Context ScreenSizeContextType :=
  createContext {| screenSize := ScreenSize.sm |}.

(** lines 30-38 *)
Definition findLargestScreenSizeMatch (sizes : Matches) : ScreenSize.t :=
  if xxl sizes then ScreenSize.xxl else
  if xl sizes then ScreenSize.xl else
  if lg sizes then ScreenSize.lg else
  if md sizes then ScreenSize.md else
  ScreenSize.sm.

(** lines 44-46 *)
Definition useScreenSize (enclosing : list ScreenSizeContextType)
  : ScreenSize.t :=
  screenSize (useContext ScreenSizeContext enclosing).

(** The object literal of lines 66-71 has four properties only. *)
Module sizes.

Record t : Type := mk { xxl : Z; xl : Z; lg : Z; md : Z }.

(** [sizes[k]]; there is no [sm] property. *)
Definition get (k : ScreenSize.t) (s : t) : option Z :=
  match k with
  | ScreenSize.xxl => Some (xxl s)
  | ScreenSize.xl => Some (xl s)
  | ScreenSize.lg => Some (lg s)
  | ScreenSize.md => Some (md s)
  | ScreenSize.sm => None
  end.

End sizes.

(** The literals on the right of [||] in lines 67-70. *)
Definition default_of (k : ScreenSize.t) : option Z :=
  match k with
  | ScreenSize.xxl => Some 1536
  | ScreenSize.xl => Some 1280
  | ScreenSize.lg => Some 1024
  | ScreenSize.md => Some 768
  | ScreenSize.sm => None
  end.

(** lines 66-71: the object [sizes] *)
Definition sizes_of (userDefinedSizes : option Overrides) : sizes.t :=
  {| sizes.xxl := or_default (opt_get ScreenSize.xxl userDefinedSizes) 1536;
     sizes.xl := or_default (opt_get ScreenSize.xl userDefinedSizes) 1280;
     sizes.lg := or_default (opt_get ScreenSize.lg userDefinedSizes) 1024;
     sizes.md := or_default (opt_get ScreenSize.md userDefinedSizes) 768 |}.

(** lines 73-77: the settings of the five [useMediaQuery] calls *)
Definition queries (s : sizes.t) : PerSize MediaQuery :=
  {| xxl := {| maxWidth := Some MAX_SAFE_INTEGER; minWidth := Some (sizes.xxl s) |};
     xl := {| maxWidth := Some (sizes.xxl s - 1); minWidth := Some (sizes.xl s) |};
     lg := {| maxWidth := Some (sizes.xl s - 1); minWidth := Some (sizes.lg s) |};
     md := {| maxWidth := Some (sizes.lg s - 1); minWidth := Some (sizes.md s) |};
     sm := {| maxWidth := Some (sizes.md s - 1); minWidth := None |} |}.

(** lines 62-86: one render at viewport width [width]. *)
Definition ScreenSizeProvider
  (userDefinedSizes : option Overrides) (width : Z) : ScreenSizeContextType :=
  let sizes := sizes_of userDefinedSizes in
  let screenSize := findLargestScreenSizeMatch (watch (queries sizes) width) in
  {| screenSize := screenSize |}.

End Legacy.

(** ** Fractional pixels *)

(** The values and the viewport-watching capability over [Q].  The
    subtraction in [sizes.k - 1] is exact; the rounding of binary64, which
    shows only from 2^53 on, is not modelled. *)
Module Frac.

Local Open Scope Q_scope.

(** A [number]: [Num q] with [q == 0], and [NaN], are the falsy ones. *)
Inductive number : Type :=
  | Num (q : Q)
  | NaN.

Definition Overrides : Type := PerSize (option number).

(** [userDefinedSizes?.k] *)
Definition opt_get (k : ScreenSize.t) (userDefinedSizes : option Overrides)
  : option number :=
  match userDefinedSizes with
  | None => None
  | Some r => get k r
  end.

(** [v || d] *)
Definition or_default (v : option number) (d : Q) : Q :=
  match v with
  | Some (Num q) => if Qeq_bool q 0 then d else q
  | Some NaN => d
  | None => d
  end.

Record MediaQuery : Type := mkMediaQuery
  { maxWidth : option Q; minWidth : option Q }.

(** Modelled from the spec: the contract of [useMediaQuery] (section 6,
    [watch(minWidth, maxWidth) -> currentBoolean]) at a width that may be
    fractional. *)
Definition useMediaQuery (q : MediaQuery) (width : Q) : bool :=
  match minWidth q with Some lo => Qle_bool lo width | None => true end
  &&
  match maxWidth q with Some hi => Qle_bool width hi | None => true end.

Definition watch (q : PerSize MediaQuery) (width : Q) : Matches :=
  {| xxl := useMediaQuery (xxl q) width;
     xl := useMediaQuery (xl q) width;
     lg := useMediaQuery (lg q) width;
     md := useMediaQuery (md q) width;
     sm := useMediaQuery (sm q) width |}.

(** The width lies strictly between [t - 1] and the threshold [t]: above
    the range that ends at [t - 1] and below the range that starts at [t]. *)
Definition in_gap (t width : Q) : bool :=
  negb (Qle_bool width (t - 1)) && negb (Qle_bool t width).

(** The width lies in the gap below one of the four thresholds. *)
Definition in_a_gap (md_ lg_ xl_ xxl_ width : Q) : bool :=
  in_gap md_ width || in_gap lg_ width || in_gap xl_ width
  || in_gap xxl_ width.

(** The label of the largest threshold that the width reaches. *)
Definition classify (md_ lg_ xl_ xxl_ width : Q) : ScreenSize.t :=
  if Qle_bool xxl_ width then ScreenSize.xxl else
  if Qle_bool xl_ width then ScreenSize.xl else
  if Qle_bool lg_ width then ScreenSize.lg else
  if Qle_bool md_ width then ScreenSize.md else
  ScreenSize.sm.

Definition ordered (md_ lg_ xl_ xxl_ top : Q) : Prop :=
  md_ < lg_ /\ lg_ < xl_ /\ xl_ < xxl_ /\ xxl_ <= top.

End Frac.

(** [src/react/MediaContext.tsx] over [Q]. *)
Module RicherQ.

Local Open Scope Q_scope.

(** lines 6-12 *)
Definition defaultSizes : PerSize Q :=
  {| xxl := 1536; xl := 1280; lg := 1024; md := 768; sm := 640 |}.

(** lines 14-18 *)
Record ScreenSizeContextType : Type := mkValue
  { screenSize : ScreenSize.t; breakpoints : PerSize Q }.

(** [Number.MAX_SAFE_INTEGER] *)
Definition MAX_SAFE_INTEGER : Q := inject_Z (2 ^ 53 - 1).

(** lines 72-78 *)
Definition sizes_of (userDefinedSizes : option Frac.Overrides) : PerSize Q :=
  {| xxl := Frac.or_default (Frac.opt_get ScreenSize.xxl userDefinedSizes) (xxl defaultSizes);
     xl := Frac.or_default (Frac.opt_get ScreenSize.xl userDefinedSizes) (xl defaultSizes);
     lg := Frac.or_default (Frac.opt_get ScreenSize.lg userDefinedSizes) (lg defaultSizes);
     md := Frac.or_default (Frac.opt_get ScreenSize.md userDefinedSizes) (md defaultSizes);
     sm := Frac.or_default (Frac.opt_get ScreenSize.sm userDefinedSizes) (sm defaultSizes) |}.

(** lines 80-84 *)
Definition queries (sizes : PerSize Q) : PerSize Frac.MediaQuery :=
  {| xxl := {| Frac.maxWidth := Some MAX_SAFE_INTEGER; Frac.minWidth := Some (xxl sizes) |};
     xl := {| Frac.maxWidth := Some (xxl sizes - 1); Frac.minWidth := Some (xl sizes) |};
     lg := {| Frac.maxWidth := Some (xl sizes - 1); Frac.minWidth := Some (lg sizes) |};
     md := {| Frac.maxWidth := Some (lg sizes - 1); Frac.minWidth := Some (md sizes) |};
     sm := {| Frac.maxWidth := Some (md sizes - 1); Frac.minWidth := None |} |}.

(** lines 68-93 *)
Definition ScreenSizeProvider
  (userDefinedSizes : option Frac.Overrides) (width : Q)
  : ScreenSizeContextType :=
  let sizes := sizes_of userDefinedSizes in
  let screenSize :=
    Richer.findLargestScreenSizeMatch (Frac.watch (queries sizes) width) in
  {| screenSize := screenSize; breakpoints := sizes |}.

End RicherQ.

(** The legacy provider of [src/types.ts] over [Q]. *)
Module LegacyQ.

Local Open Scope Q_scope.

(** line 8 *)
Definition MAX_SAFE_INTEGER : Q := 99999.

(** The object literal of lines 66-71. *)
Module sizes.

Record t : Type := mk { xxl : Q; xl : Q; lg : Q; md : Q }.

End sizes.

(** lines 66-71 *)
Definition sizes_of (userDefinedSizes : option Frac.Overrides) : sizes.t :=
  {| sizes.xxl := Frac.or_default (Frac.opt_get ScreenSize.xxl userDefinedSizes) 1536;
     sizes.xl := Frac.or_default (Frac.opt_get ScreenSize.xl userDefinedSizes) 1280;
     sizes.lg := Frac.or_default (Frac.opt_get ScreenSize.lg userDefinedSizes) 1024;
     sizes.md := Frac.or_default (Frac.opt_get ScreenSize.md userDefinedSizes) 768 |}.

(** lines 73-77 *)
Definition queries (s : sizes.t) : PerSize Frac.MediaQuery :=
  {| xxl := {| Frac.maxWidth := Some MAX_SAFE_INTEGER; Frac.minWidth := Some (sizes.xxl s) |};
     xl := {| Frac.maxWidth := Some (sizes.xxl s - 1); Frac.minWidth := Some (sizes.xl s) |};
     lg := {| Frac.maxWidth := Some (sizes.xl s - 1); Frac.minWidth := Some (sizes.lg s) |};
     md := {| Frac.maxWidth := Some (sizes.lg s - 1); Frac.minWidth := Some (sizes.md s) |};
     sm := {| Frac.maxWidth := Some (sizes.md s - 1); Frac.minWidth := None |} |}.

(** lines 62-86 *)
Definition ScreenSizeProvider
  (userDefinedSizes : option Frac.Overrides) (width : Q)
  : Legacy.ScreenSizeContextType :=
  let sizes := sizes_of userDefinedSizes in
  let screenSize :=
    Legacy.findLargestScreenSizeMatch (Frac.watch (queries sizes) width) in
  {| Legacy.screenSize := screenSize |}.

End LegacyQ.

(** Integer values seen as rationals. *)
Definition number_to_Q (n : number) : Frac.number :=
  match n with
  | Num z => Frac.Num (inject_Z z)
  | NaN => Frac.NaN
  end.

Definition overrides_to_Q (u : option Overrides) : option Frac.Overrides :=
  match u with
  | None => None
  | Some r =>
      Some {| xxl := option_map number_to_Q (xxl r);
              xl := option_map number_to_Q (xl r);
              lg := option_map number_to_Q (lg r);
              md := option_map number_to_Q (md r);
              sm := option_map number_to_Q (sm r) |}
  end.

(** [{ md: 768.5 }] *)
Definition md_768_5 : Frac.Overrides :=
  {| xxl := None; xl := None; lg := None;
     md := Some (Frac.Num (1537 # 2)); sm := None |}.

(** ** Sample inputs *)

(** The override object [{ md: 900 }]. *)
Definition md_900 : Overrides :=
  {| xxl := None; xl := None; lg := None; md := Some (Num 900); sm := None |}.

(** [{ sm: 100 }] *)
Definition sm_100 : Overrides :=
  {| xxl := None; xl := None; lg := None; md := None; sm := Some (Num 100) |}.

(** [{ sm: 500 }] *)
Definition sm_500 : Overrides :=
  {| xxl := None; xl := None; lg := None; md := None; sm := Some (Num 500) |}.

(** [{ xl: 0 }] *)
Definition xl_0 : Overrides :=
  {| xxl := None; xl := Some (Num 0); lg := None; md := None; sm := None |}.

(** [{ xl: 1000, lg: 0, md: NaN }] *)
Definition xl_1000_lg_0_md_NaN : Overrides :=
  {| xxl := None; xl := Some (Num 1000); lg := Some (Num 0);
     md := Some NaN; sm := None |}.

(** Flags with [xl], [md] and [sm] set at once. *)
Definition xl_md_sm_set : Matches :=
  {| xxl := false; xl := true; lg := false; md := true; sm := true |}.

(** [{ xl: 2000 }]: an [xl] threshold above the default [xxl]. *)
Definition xl_2000 : Overrides :=
  {| xxl := None; xl := Some (Num 2000); lg := None; md := None; sm := None |}.

(** ** Reference notions for the further properties *)

(** The label of the largest threshold that the width reaches, ["sm"] when
    it reaches none. *)
Definition classify (md_ lg_ xl_ xxl_ width : Z) : ScreenSize.t :=
  if xxl_ <=? width then ScreenSize.xxl else
  if xl_ <=? width then ScreenSize.xl else
  if lg_ <=? width then ScreenSize.lg else
  if md_ <=? width then ScreenSize.md else
  ScreenSize.sm.

(** A published [breakpoints] table handed to a provider as its [sizes]
    prop: every property is present and is a number. *)
Definition as_overrides (b : Breakpoints) : Overrides :=
  {| xxl := Some (Num (xxl b)); xl := Some (Num (xl b));
     lg := Some (Num (lg b)); md := Some (Num (md b));
     sm := Some (Num (sm b)) |}.

(** * Properties *)

(** ** The resolver *)

Ltac flags m :=
  destruct m as [[] [] [] [] []]; cbn in *.

(** The two copies of the resolver are the same function. *)
Lemma findLargestScreenSizeMatch_same (m : Matches) :
  Legacy.findLargestScreenSizeMatch m = Richer.findLargestScreenSizeMatch m.
Proof. reflexivity. Qed.

(** The cascade never answers with a label whose flag is unset, except for
    the fallback. *)
Lemma findLargestScreenSizeMatch_flag (m : Matches) :
  Richer.findLargestScreenSizeMatch m = ScreenSize.sm \/
  get (Richer.findLargestScreenSizeMatch m) m = true.
Proof. flags m; auto. Qed.

(** A record with one set flag is one of the five [only k]. *)
Lemma count_true_one_only (m : Matches) :
  count_true m = 1%nat -> exists k, m = only k.
Proof.
  flags m; intros H; try discriminate H.
  - now exists ScreenSize.xxl.
  - now exists ScreenSize.xl.
  - now exists ScreenSize.lg.
  - now exists ScreenSize.md.
  - now exists ScreenSize.sm.
Qed.

(** C1. When exactly one of the five flags is set, both copies of
    [findLargestScreenSizeMatch] return the label of that flag; when no flag
    is set they return ["sm"]. *)
Theorem single_flag_resolves_to_its_label :
  (forall (m : Matches) (k : ScreenSize.t),
      count_true m = 1%nat ->
      get k m = true ->
      Richer.findLargestScreenSizeMatch m = k /\
      Legacy.findLargestScreenSizeMatch m = k)
  /\ Richer.findLargestScreenSizeMatch none_set = ScreenSize.sm
  /\ Legacy.findLargestScreenSizeMatch none_set = ScreenSize.sm.
Proof.
  split; [| split; reflexivity].
  intros m k Hone Hk.
  enough (H : Richer.findLargestScreenSizeMatch m = k)
    by (split; [exact H | rewrite findLargestScreenSizeMatch_same; exact H]).
  destruct (count_true_one_only m Hone) as [k' ->].
  destruct k', k; cbn in Hk; try discriminate Hk; reflexivity.
Qed.

Lemma single_flag_resolves_to_its_label_witness :
  count_true (only ScreenSize.lg) = 1%nat /\
  get ScreenSize.lg (only ScreenSize.lg) = true /\
  Richer.findLargestScreenSizeMatch (only ScreenSize.lg) = ScreenSize.lg /\
  Legacy.findLargestScreenSizeMatch (only ScreenSize.lg) = ScreenSize.lg.
Proof.
  split; [reflexivity |].
  split; [reflexivity |].
  apply (proj1 single_flag_resolves_to_its_label
           (only ScreenSize.lg) ScreenSize.lg); reflexivity.
Defined.

(** C2. When more than one flag is set, both copies of
    [findLargestScreenSizeMatch] return a label whose flag is set and that
    no other set flag outranks in [xxl > xl > lg > md > sm]. *)
Theorem several_flags_resolve_to_the_largest :
  forall m : Matches,
    (2 <= count_true m)%nat ->
    let r := Richer.findLargestScreenSizeMatch m in
    Legacy.findLargestScreenSizeMatch m = r /\
    get r m = true /\
    forall k : ScreenSize.t,
      get k m = true -> (ScreenSize.rank k <= ScreenSize.rank r)%nat.
Proof.
  intros m Hmany r; subst r.
  split; [reflexivity |].
  flags m; try lia; (split; [reflexivity |]);
    intros [] Hk; cbn in *; try discriminate Hk; lia.
Qed.

Lemma several_flags_resolve_to_the_largest_witness :
  (2 <= count_true xl_md_sm_set)%nat /\
  Richer.findLargestScreenSizeMatch xl_md_sm_set = ScreenSize.xl /\
  Legacy.findLargestScreenSizeMatch xl_md_sm_set = ScreenSize.xl /\
  get ScreenSize.xl xl_md_sm_set = true.
Proof.
  pose proof (several_flags_resolve_to_the_largest xl_md_sm_set) as H.
  assert (Hc : (2 <= count_true xl_md_sm_set)%nat) by (vm_compute; lia).
  specialize (H Hc).
  split; [exact Hc |].
  split; [reflexivity |].
  split; [exact (proj1 H) | exact (proj1 (proj2 H))].
Defined.

(** ** Resolving the breakpoint table *)

Lemma or_default_truthy (z d : Z) :
  truthy (Num z) = true -> or_default (Some (Num z)) d = z.
Proof.
  cbn. destruct (z =? 0); [discriminate | reflexivity].
Qed.

Lemma or_default_falsy (v : option number) (d : Z) :
  falsy v -> or_default v d = d.
Proof.
  destruct v as [[z |] |]; cbn; try reflexivity.
  destruct (z =? 0); [reflexivity | discriminate].
Qed.

(** Whatever the overrides, no resolved threshold is [0]. *)
Lemma or_default_nonzero (v : option number) (d : Z) :
  d <> 0 -> or_default v d <> 0.
Proof.
  destruct v as [[z |] |]; cbn; try easy.
  destruct (Z.eqb_spec z 0); easy.
Qed.

(** The legacy table drops an [sm] override: the claim of C4 read for all
    five names fails there. *)
Lemma legacy_table_has_no_sm :
  ~ (forall (u : option Overrides) (k : ScreenSize.t) (z : Z),
        opt_get k u = Some (Num z) ->
        truthy (Num z) = true ->
        Legacy.sizes.get k (Legacy.sizes_of u) = Some z).
Proof.
  intros H.
  specialize (H (Some sm_500) ScreenSize.sm 500 eq_refl eq_refl).
  discriminate H.
Qed.

(** C4, amended. In the current provider each of the five resolved
    thresholds is the override when it is present and truthy and the default
    (1536, 1280, 1024, 768, 640) otherwise; in the legacy provider the same
    holds for [xxl], [xl], [lg] and [md] (1536, 1280, 1024, 768), and the
    resolved table has no [sm] entry whatever the overrides.  An override
    of [0], [NaN] or a missing one gives the default. *)
Theorem sizes_of_override_or_default :
  forall (u : option Overrides) (k : ScreenSize.t),
    (forall z : Z,
        opt_get k u = Some (Num z) ->
        truthy (Num z) = true ->
        get k (Richer.sizes_of u) = z /\
        (k <> ScreenSize.sm ->
         Legacy.sizes.get k (Legacy.sizes_of u) = Some z))
    /\ (falsy (opt_get k u) ->
        get k (Richer.sizes_of u) = get k Richer.defaultSizes /\
        Legacy.sizes.get k (Legacy.sizes_of u) = Legacy.default_of k)
    /\ Legacy.sizes.get ScreenSize.sm (Legacy.sizes_of u) = None
    /\ Richer.defaultSizes =
         {| xxl := 1536; xl := 1280; lg := 1024; md := 768; sm := 640 |}
    /\ map Legacy.default_of ScreenSize.all =
         [Some 1536; Some 1280; Some 1024; Some 768; None].
Proof.
  intros u k.
  split; [| split; [| repeat split]].
  - intros z Hget Htruthy.
    split.
    + destruct k; cbn [get Richer.sizes_of xxl xl lg md sm];
        rewrite Hget; apply or_default_truthy; exact Htruthy.
    + intros Hk.
      destruct k; try contradiction;
        cbn [Legacy.sizes.get Legacy.sizes_of Legacy.sizes.xxl Legacy.sizes.xl
               Legacy.sizes.lg Legacy.sizes.md];
        rewrite Hget; f_equal; apply or_default_truthy; exact Htruthy.
  - intros Hfalsy.
    split.
    + destruct k; cbn [get Richer.sizes_of xxl xl lg md sm];
        apply or_default_falsy; exact Hfalsy.
    + destruct k;
        cbn [Legacy.sizes.get Legacy.sizes_of Legacy.sizes.xxl Legacy.sizes.xl
               Legacy.sizes.lg Legacy.sizes.md Legacy.default_of];
        try reflexivity; f_equal; apply or_default_falsy; exact Hfalsy.
Qed.

Lemma sizes_of_override_or_default_witness :
  get ScreenSize.xl (Richer.sizes_of (Some xl_1000_lg_0_md_NaN)) = 1000 /\
  Legacy.sizes.get ScreenSize.xl (Legacy.sizes_of (Some xl_1000_lg_0_md_NaN))
    = Some 1000 /\
  get ScreenSize.lg (Richer.sizes_of (Some xl_1000_lg_0_md_NaN)) = 1024 /\
  Legacy.sizes.get ScreenSize.lg (Legacy.sizes_of (Some xl_1000_lg_0_md_NaN))
    = Some 1024.
Proof.
  pose (u := Some xl_1000_lg_0_md_NaN).
  destruct (sizes_of_override_or_default u ScreenSize.xl) as [Hxl _].
  destruct (sizes_of_override_or_default u ScreenSize.lg) as [_ [Hlg _]].
  specialize (Hxl 1000 eq_refl eq_refl).
  specialize (Hlg eq_refl).
  split; [exact (proj1 Hxl) |].
  split; [apply (proj2 Hxl); discriminate |].
  exact Hlg.
Defined.

(** ** The five width ranges *)

Ltac unfold_watches :=
  unfold count_true, ScreenSize.all, watch, Richer.queries, Legacy.queries,
    useMediaQuery, in_range;
  cbn [get filter length xxl xl lg md sm maxWidth minWidth andb].

(** Case analysis on the next comparison, dropping the impossible side. *)
Ltac leb_case :=
  match goal with
  | |- context [?a <=? ?b] => destruct (Z.leb_spec a b); try lia
  end.

(** A query with both bounds is an interval test. *)
Lemma useMediaQuery_bounded (lo hi w : Z) :
  useMediaQuery {| maxWidth := Some hi; minWidth := Some lo |} w
  = in_range lo hi w.
Proof. reflexivity. Qed.

(** A query with an upper bound only is an interval test from [0] as long
    as the width is not negative. *)
Lemma useMediaQuery_upper_only (hi w : Z) :
  0 <= w ->
  useMediaQuery {| maxWidth := Some hi; minWidth := None |} w
  = in_range 0 hi w.
Proof.
  intros Hw. unfold useMediaQuery, in_range. cbn.
  destruct (Z.leb_spec 0 w); [reflexivity | lia].
Qed.

(** The current provider does not bound its [sm] watch below by the [sm]
    threshold: the reading of C3 for that variant fails at width 500. *)
Lemma richer_sm_watch_not_from_sm_threshold :
  ~ (forall (u : option Overrides) (w : Z),
        0 <= w ->
        let s := Richer.sizes_of u in
        sm (watch (Richer.queries s) w) = in_range (sm s) (md s - 1) w).
Proof.
  intros H.
  specialize (H None 500 ltac:(lia)).
  vm_compute in H. discriminate H.
Qed.

(** C3, amended. For every overrides record and every width [w >= 0], the
    watches of both providers test: [xxl] for [xxl, UNBOUNDED_MAX], [xl] for
    [xl, xxl-1], [lg] for [lg, xl-1], [md] for [md, lg-1] and [sm] for
    [0, md-1].  The [sm] watch has no lower bound in either provider, and
    the [sm] threshold of the current provider does not enter it.
    UNBOUNDED_MAX is 99999 in the legacy provider and 2^53 - 1 in the
    current one. *)
Theorem watches_are_the_five_ranges :
  forall (u : option Overrides) (w : Z),
    0 <= w ->
    (let s := Richer.sizes_of u in
     let m := watch (Richer.queries s) w in
     xxl m = in_range (xxl s) Richer.MAX_SAFE_INTEGER w /\
     xl m = in_range (xl s) (xxl s - 1) w /\
     lg m = in_range (lg s) (xl s - 1) w /\
     md m = in_range (md s) (lg s - 1) w /\
     sm m = in_range 0 (md s - 1) w /\
     minWidth (sm (Richer.queries s)) = None)
    /\
    (let s := Legacy.sizes_of u in
     let m := watch (Legacy.queries s) w in
     xxl m = in_range (Legacy.sizes.xxl s) Legacy.MAX_SAFE_INTEGER w /\
     xl m = in_range (Legacy.sizes.xl s) (Legacy.sizes.xxl s - 1) w /\
     lg m = in_range (Legacy.sizes.lg s) (Legacy.sizes.xl s - 1) w /\
     md m = in_range (Legacy.sizes.md s) (Legacy.sizes.lg s - 1) w /\
     sm m = in_range 0 (Legacy.sizes.md s - 1) w /\
     minWidth (sm (Legacy.queries s)) = None)
    /\ Legacy.MAX_SAFE_INTEGER = 99999
    /\ Richer.MAX_SAFE_INTEGER = 9007199254740991.
Proof.
  intros u w Hw.
  split; [| split; [| split; reflexivity]].
  - cbv zeta.
    repeat split; try apply useMediaQuery_bounded.
    apply useMediaQuery_upper_only; exact Hw.
  - cbv zeta.
    repeat split; try apply useMediaQuery_bounded.
    apply useMediaQuery_upper_only; exact Hw.
Qed.

Lemma watches_are_the_five_ranges_witness :
  0 <= 500 /\
  sm (watch (Richer.queries (Richer.sizes_of None)) 500) = in_range 0 767 500 /\
  sm (watch (Legacy.queries (Legacy.sizes_of None)) 500) = in_range 0 767 500.
Proof.
  assert (Hw : 0 <= 500) by lia.
  pose proof (watches_are_the_five_ranges None 500 Hw) as [HR [HL _]].
  split; [exact Hw |].
  split.
  - exact (proj1 (proj2 (proj2 (proj2 (proj2 HR))))).
  - exact (proj1 (proj2 (proj2 (proj2 (proj2 HL))))).
Defined.

(** Exactly one watch holds for an ordered table, whatever its entries. *)
Lemma richer_one_watch (s : Breakpoints) (w : Z) :
  ordered (md s) (lg s) (xl s) (xxl s) Richer.MAX_SAFE_INTEGER ->
  0 <= w <= Richer.MAX_SAFE_INTEGER ->
  count_true (watch (Richer.queries s) w) = 1%nat.
Proof.
  unfold ordered; unfold_watches.
  generalize Richer.MAX_SAFE_INTEGER; intros top.
  destruct s as [a b c d e]; cbn [xxl xl lg md sm].
  intros Hord Hw.
  repeat leb_case; reflexivity.
Qed.

Lemma legacy_one_watch (s : Legacy.sizes.t) (w : Z) :
  ordered (Legacy.sizes.md s) (Legacy.sizes.lg s) (Legacy.sizes.xl s)
    (Legacy.sizes.xxl s) Legacy.MAX_SAFE_INTEGER ->
  0 <= w <= Legacy.MAX_SAFE_INTEGER ->
  count_true (watch (Legacy.queries s) w) = 1%nat.
Proof.
  unfold ordered; unfold_watches.
  generalize Legacy.MAX_SAFE_INTEGER; intros top.
  destruct s as [a b c d];
    cbn [Legacy.sizes.xxl Legacy.sizes.xl Legacy.sizes.lg Legacy.sizes.md].
  intros Hord Hw.
  repeat leb_case; reflexivity.
Qed.

(** C5. When the resolved thresholds satisfy
    [md < lg < xl < xxl <= UNBOUNDED_MAX], every width in
    [0, UNBOUNDED_MAX] sets exactly one of the five match flags, in the
    current provider and in the legacy one. *)
Theorem ordered_thresholds_set_one_flag :
  (forall (u : option Overrides) (w : Z),
      let s := Richer.sizes_of u in
      ordered (md s) (lg s) (xl s) (xxl s) Richer.MAX_SAFE_INTEGER ->
      0 <= w <= Richer.MAX_SAFE_INTEGER ->
      count_true (watch (Richer.queries s) w) = 1%nat)
  /\
  (forall (u : option Overrides) (w : Z),
      let s := Legacy.sizes_of u in
      ordered (Legacy.sizes.md s) (Legacy.sizes.lg s) (Legacy.sizes.xl s)
        (Legacy.sizes.xxl s) Legacy.MAX_SAFE_INTEGER ->
      0 <= w <= Legacy.MAX_SAFE_INTEGER ->
      count_true (watch (Legacy.queries s) w) = 1%nat).
Proof.
  split; intros u w s.
  - apply richer_one_watch.
  - apply legacy_one_watch.
Qed.

Lemma ordered_thresholds_set_one_flag_witness :
  count_true (watch (Richer.queries (Richer.sizes_of None)) 800) = 1%nat /\
  count_true (watch (Legacy.queries (Legacy.sizes_of None)) 800) = 1%nat.
Proof.
  split.
  - apply (proj1 ordered_thresholds_set_one_flag None 800);
      vm_compute; repeat split; discriminate.
  - apply (proj2 ordered_thresholds_set_one_flag None 800);
      vm_compute; repeat split; discriminate.
Defined.

(** ** The two providers side by side *)

(** Both providers resolve the same four thresholds from the same overrides. *)
Lemma legacy_richer_thresholds (u : option Overrides) :
  Legacy.sizes.xxl (Legacy.sizes_of u) = xxl (Richer.sizes_of u) /\
  Legacy.sizes.xl (Legacy.sizes_of u) = xl (Richer.sizes_of u) /\
  Legacy.sizes.lg (Legacy.sizes_of u) = lg (Richer.sizes_of u) /\
  Legacy.sizes.md (Legacy.sizes_of u) = md (Richer.sizes_of u).
Proof. repeat split. Qed.

(** Up to the legacy sentinel the two providers agree for any overrides. *)
Lemma legacy_richer_agree (u : option Overrides) (w : Z) :
  w <= Legacy.MAX_SAFE_INTEGER ->
  Legacy.screenSize (Legacy.ScreenSizeProvider u w)
  = Richer.screenSize (Richer.ScreenSizeProvider u w).
Proof.
  intros Hw.
  unfold Legacy.ScreenSizeProvider, Richer.ScreenSizeProvider,
    Legacy.findLargestScreenSizeMatch, Richer.findLargestScreenSizeMatch.
  cbn [Legacy.screenSize Richer.screenSize].
  unfold watch, Legacy.queries, Richer.queries, useMediaQuery.
  cbn [xxl xl lg md sm maxWidth minWidth].
  destruct (legacy_richer_thresholds u) as (-> & -> & -> & ->).
  assert (Htop : Legacy.MAX_SAFE_INTEGER <= Richer.MAX_SAFE_INTEGER)
    by (vm_compute; discriminate).
  replace (w <=? Legacy.MAX_SAFE_INTEGER) with true
    by (symmetry; apply Z.leb_le; exact Hw).
  replace (w <=? Richer.MAX_SAFE_INTEGER) with true
    by (symmetry; apply Z.leb_le; lia).
  reflexivity.
Qed.

(** Above the legacy sentinel they part: no legacy watch holds any more. *)
Remark legacy_richer_differ_above_sentinel :
  Legacy.screenSize (Legacy.ScreenSizeProvider None 100000) = ScreenSize.sm /\
  Richer.screenSize (Richer.ScreenSizeProvider None 100000) = ScreenSize.xxl.
Proof. split; reflexivity. Qed.

(** C6. Without overrides, for every width [w] with [0 <= w <= 99999] the
    legacy provider and the current provider resolve the same screen size. *)
Theorem legacy_and_richer_resolve_alike :
  forall w : Z,
    0 <= w <= 99999 ->
    Legacy.screenSize (Legacy.ScreenSizeProvider None w)
    = Richer.screenSize (Richer.ScreenSizeProvider None w).
Proof.
  intros w [_ Hw].
  apply legacy_richer_agree. exact Hw.
Qed.

Lemma legacy_and_richer_resolve_alike_witness :
  0 <= 1100 <= 99999 /\
  Legacy.screenSize (Legacy.ScreenSizeProvider None 1100) = ScreenSize.lg /\
  Richer.screenSize (Richer.ScreenSizeProvider None 1100) = ScreenSize.lg.
Proof.
  assert (Hw : 0 <= 1100 <= 99999) by lia.
  pose proof (legacy_and_richer_resolve_alike 1100 Hw) as H.
  split; [exact Hw |].
  split; [reflexivity |].
  rewrite <- H. reflexivity.
Defined.

(** ** Scenarios *)

(** C7. Without overrides a width of 800 resolves to ["md"]; with the
    override [{ md: 900 }] a width of 850 resolves to ["sm"]; in both
    providers. *)
Theorem scenarios_800_and_850 :
  Richer.screenSize (Richer.ScreenSizeProvider None 800) = ScreenSize.md /\
  Legacy.screenSize (Legacy.ScreenSizeProvider None 800) = ScreenSize.md /\
  Richer.screenSize (Richer.ScreenSizeProvider (Some md_900) 850)
    = ScreenSize.sm /\
  Legacy.screenSize (Legacy.ScreenSizeProvider (Some md_900) 850)
    = ScreenSize.sm.
Proof. repeat split. Qed.

(** With [{ md: 900 }] the [md] range starts at 900 and 850 lies in the
    [sm] range. *)
Remark md_900_ranges :
  md (Richer.sizes_of (Some md_900)) = 900 /\
  watch (Richer.queries (Richer.sizes_of (Some md_900))) 850 = only ScreenSize.sm.
Proof. split; reflexivity. Qed.

(** ** Reading the context *)

(** C8. With no enclosing provider, [useScreenSize] returns ["sm"], the
    screen size of the context's default value, in both providers. *)
Theorem useScreenSize_outside_provider :
  Richer.useScreenSize [] = ScreenSize.sm /\
  Legacy.useScreenSize [] = ScreenSize.sm /\
  Richer.screenSize (defaultValue Richer.ScreenSizeContext) = ScreenSize.sm /\
  Legacy.screenSize (defaultValue Legacy.ScreenSizeContext) = ScreenSize.sm.
Proof. repeat split. Qed.

(** Below a provider the hook reads what the provider resolved. *)
Lemma useScreenSize_inside_provider
  (u : option Overrides) (w : Z) (enclosing : list Richer.ScreenSizeContextType) :
  Richer.useScreenSize (Richer.ScreenSizeProvider u w :: enclosing)
  = Richer.findLargestScreenSizeMatch
      (watch (Richer.queries (Richer.sizes_of u)) w).
Proof. reflexivity. Qed.

(** C9. In the current provider a consumer reads the pair
    [{screenSize, breakpoints}].  Each entry of [breakpoints] is the
    override when that is a non-zero number, and the built-in default
    (1536, 1280, 1024, 768, 640) when the [sizes] prop is absent or the
    override is missing, [NaN] or [0], so it is never a raw [0]; and
    [screenSize] is the label found by testing the width against the ranges
    [xxl, 2^53 - 1], [xl, xxl - 1], [lg, xl - 1], [md, lg - 1] taken from
    that very table, in this order, with ["sm"] left over. *)
Theorem published_breakpoints_are_the_resolved_table :
  forall (u : option Overrides) (w : Z)
         (enclosing : list Richer.ScreenSizeContextType) (k : ScreenSize.t),
    let v := Richer.consumer_reads u w enclosing in
    let b := Richer.breakpoints v in
    let default :=
      {| xxl := 1536; xl := 1280; lg := 1024; md := 768; sm := 640 |} in
    (u = None -> get k b = get k default) /\
    (forall r : Overrides,
        u = Some r ->
        (forall z : Z, get k r = Some (Num z) -> z <> 0 -> get k b = z) /\
        (get k r = None \/ get k r = Some NaN \/ get k r = Some (Num 0) ->
         get k b = get k default)) /\
    get k b <> 0 /\
    Richer.screenSize v =
      (if (xxl b <=? w) && (w <=? 9007199254740991) then ScreenSize.xxl
       else if (xl b <=? w) && (w <=? xxl b - 1) then ScreenSize.xl
       else if (lg b <=? w) && (w <=? xl b - 1) then ScreenSize.lg
       else if (md b <=? w) && (w <=? lg b - 1) then ScreenSize.md
       else ScreenSize.sm).
Proof.
  intros u w enclosing k v b default; subst v b default.
  unfold Richer.consumer_reads, useContext.
  cbn [hd Richer.ScreenSizeProvider Richer.breakpoints Richer.screenSize].
  split; [| split; [| split]].
  - intros ->. destruct k; reflexivity.
  - intros r ->.
    split.
    + intros z Hk Hz.
      destruct k; cbn [get Richer.sizes_of opt_get xxl xl lg md sm] in *;
        rewrite Hk; cbn [or_default];
        destruct (Z.eqb_spec z 0); congruence.
    + intros Hk.
      destruct k; cbn [get Richer.sizes_of opt_get xxl xl lg md sm] in *;
        destruct Hk as [Hk | [Hk | Hk]]; rewrite Hk; reflexivity.
  - destruct k; cbn [get Richer.sizes_of xxl xl lg md sm];
      apply or_default_nonzero; discriminate.
  - reflexivity.
Qed.

Lemma published_breakpoints_are_the_resolved_table_witness :
  xl (Richer.breakpoints
        (Richer.consumer_reads (Some xl_1000_lg_0_md_NaN) 1100 [])) = 1000 /\
  lg (Richer.breakpoints
        (Richer.consumer_reads (Some xl_1000_lg_0_md_NaN) 1100 [])) = 1024 /\
  Richer.screenSize
    (Richer.consumer_reads (Some xl_1000_lg_0_md_NaN) 1100 []) = ScreenSize.xl.
Proof.
  pose proof (published_breakpoints_are_the_resolved_table
                (Some xl_1000_lg_0_md_NaN) 1100 [] ScreenSize.xl) as Hxl.
  pose proof (published_breakpoints_are_the_resolved_table
                (Some xl_1000_lg_0_md_NaN) 1100 [] ScreenSize.lg) as Hlg.
  cbv zeta in Hxl, Hlg.
  destruct Hxl as (_ & Hxl & _ & Hsize).
  destruct Hlg as (_ & Hlg & _).
  destruct (Hxl xl_1000_lg_0_md_NaN eq_refl) as [Htruthy _].
  destruct (Hlg xl_1000_lg_0_md_NaN eq_refl) as [_ Hfalsy].
  split; [apply (Htruthy 1000); [reflexivity | discriminate] |].
  split; [apply Hfalsy; right; right; reflexivity |].
  rewrite Hsize. reflexivity.
Defined.

(** The published table is not the raw overrides: a falsy entry is
    published as its default. *)
Remark published_breakpoints_not_raw :
  get ScreenSize.xl xl_0 = Some (Num 0) /\
  xl (Richer.breakpoints (Richer.consumer_reads (Some xl_0) 1300 [])) = 1280.
Proof. split; reflexivity. Qed.

(** ** The [sm] flag and the [sm] threshold *)

(** C10. Two flag records that agree on [xxl], [xl], [lg] and [md] resolve
    alike in both copies of the resolver.  In the current provider, two
    tables that agree on those four thresholds give the same five queries,
    and two overrides that agree outside [sm] give the same screen size at
    every width. *)
Theorem sm_is_not_read :
  (forall m1 m2 : Matches,
      xxl m1 = xxl m2 -> xl m1 = xl m2 -> lg m1 = lg m2 -> md m1 = md m2 ->
      Richer.findLargestScreenSizeMatch m1 = Richer.findLargestScreenSizeMatch m2 /\
      Legacy.findLargestScreenSizeMatch m1 = Legacy.findLargestScreenSizeMatch m2)
  /\
  (forall s1 s2 : Breakpoints,
      xxl s1 = xxl s2 -> xl s1 = xl s2 -> lg s1 = lg s2 -> md s1 = md s2 ->
      Richer.queries s1 = Richer.queries s2)
  /\
  (forall (u1 u2 : option Overrides) (w : Z),
      (forall k, k <> ScreenSize.sm -> opt_get k u1 = opt_get k u2) ->
      Richer.queries (Richer.sizes_of u1) = Richer.queries (Richer.sizes_of u2) /\
      Richer.screenSize (Richer.ScreenSizeProvider u1 w)
      = Richer.screenSize (Richer.ScreenSizeProvider u2 w)).
Proof.
  assert (Hq : forall s1 s2 : Breakpoints,
             xxl s1 = xxl s2 -> xl s1 = xl s2 -> lg s1 = lg s2 ->
             md s1 = md s2 -> Richer.queries s1 = Richer.queries s2).
  { intros s1 s2 H1 H2 H3 H4. unfold Richer.queries. congruence. }
  split; [| split; [exact Hq |]].
  - intros m1 m2 H1 H2 H3 H4.
    unfold Richer.findLargestScreenSizeMatch, Legacy.findLargestScreenSizeMatch.
    rewrite H1, H2, H3, H4. split; reflexivity.
  - intros u1 u2 w Hagree.
    assert (Hsame : Richer.queries (Richer.sizes_of u1)
                    = Richer.queries (Richer.sizes_of u2)).
    { apply Hq; cbn [Richer.sizes_of xxl xl lg md];
        (rewrite Hagree; [reflexivity | discriminate]). }
    split; [exact Hsame |].
    unfold Richer.ScreenSizeProvider. cbn [Richer.screenSize].
    rewrite Hsame. reflexivity.
Qed.

Lemma sm_is_not_read_witness :
  Richer.findLargestScreenSizeMatch (only ScreenSize.sm)
  = Richer.findLargestScreenSizeMatch none_set /\
  Richer.queries (Richer.sizes_of (Some sm_100))
  = Richer.queries Richer.defaultSizes /\
  Richer.screenSize (Richer.ScreenSizeProvider (Some sm_100) 50)
  = Richer.screenSize (Richer.ScreenSizeProvider None 50) /\
  sm (Richer.sizes_of (Some sm_100)) <> sm (Richer.sizes_of None).
Proof.
  pose (u := sm_100).
  destruct sm_is_not_read as [Hm [Hs Hu]].
  split.
  { apply (Hm (only ScreenSize.sm) none_set); reflexivity. }
  split.
  { apply (Hs (Richer.sizes_of (Some u)) Richer.defaultSizes); reflexivity. }
  split.
  { apply (Hu (Some u) None 50).
    intros k Hk. destruct k; try reflexivity. contradiction. }
  discriminate.
Defined.

(** * Further properties of the providers *)

(** ** Tables of arbitrary thresholds *)

Ltac open_tables :=
  unfold ordered, classify, Richer.findLargestScreenSizeMatch,
    Legacy.findLargestScreenSizeMatch;
  unfold_watches.

Ltac by_cases :=
  repeat leb_case; cbn; try reflexivity; try discriminate; try lia.

(** X2. Whatever the overrides and the width, two neighbouring watches
    ([sm]/[md], [md]/[lg], [lg]/[xl], [xl]/[xxl]) never hold together, in
    either provider. *)
Theorem neighbouring_watches_exclusive :
  forall (u : option Overrides) (w : Z),
    (let m := watch (Richer.queries (Richer.sizes_of u)) w in
     sm m && md m = false /\ md m && lg m = false /\
     lg m && xl m = false /\ xl m && xxl m = false)
    /\
    (let m := watch (Legacy.queries (Legacy.sizes_of u)) w in
     sm m && md m = false /\ md m && lg m = false /\
     lg m && xl m = false /\ xl m && xxl m = false).
Proof.
  intros u w.
  split; cbv zeta.
  - generalize (Richer.sizes_of u); intros s.
    open_tables. generalize Richer.MAX_SAFE_INTEGER; intros top.
    destruct s as [? ? ? ? ?]; cbn [xxl xl lg md sm].
    repeat split; by_cases.
  - generalize (Legacy.sizes_of u); intros s.
    open_tables. generalize Legacy.MAX_SAFE_INTEGER; intros top.
    destruct s as [? ? ? ?];
      cbn [Legacy.sizes.xxl Legacy.sizes.xl Legacy.sizes.lg Legacy.sizes.md].
    repeat split; by_cases.
Qed.

(** Distant watches can hold together when the thresholds are out of
    order: with [{ xl: 2000 }] both [xxl] and [lg] hold at 1700. *)
Remark distant_watches_may_overlap :
  watch (Richer.queries (Richer.sizes_of (Some xl_2000))) 1700
  = {| xxl := true; xl := false; lg := true; md := false; sm := false |}.
Proof. reflexivity. Qed.

(** ** Ordered thresholds *)

Lemma richer_label_classify (s : Breakpoints) (w : Z) :
  ordered (md s) (lg s) (xl s) (xxl s) Richer.MAX_SAFE_INTEGER ->
  w <= Richer.MAX_SAFE_INTEGER ->
  Richer.findLargestScreenSizeMatch (watch (Richer.queries s) w)
  = classify (md s) (lg s) (xl s) (xxl s) w.
Proof.
  open_tables. generalize Richer.MAX_SAFE_INTEGER; intros top.
  destruct s as [? ? ? ? ?]; cbn [xxl xl lg md sm]. intros Hord Hw.
  by_cases.
Qed.

Lemma legacy_label_classify (s : Legacy.sizes.t) (w : Z) :
  ordered (Legacy.sizes.md s) (Legacy.sizes.lg s) (Legacy.sizes.xl s)
    (Legacy.sizes.xxl s) Legacy.MAX_SAFE_INTEGER ->
  w <= Legacy.MAX_SAFE_INTEGER ->
  Legacy.findLargestScreenSizeMatch (watch (Legacy.queries s) w)
  = classify (Legacy.sizes.md s) (Legacy.sizes.lg s) (Legacy.sizes.xl s)
      (Legacy.sizes.xxl s) w.
Proof.
  open_tables. generalize Legacy.MAX_SAFE_INTEGER; intros top.
  destruct s as [? ? ? ?];
    cbn [Legacy.sizes.xxl Legacy.sizes.xl Legacy.sizes.lg Legacy.sizes.md].
  intros Hord Hw.
  by_cases.
Qed.

(** X5. With ordered thresholds the lower end of every range belongs to it:
    at a width equal to a threshold the provider publishes that threshold's
    label, and one pixel below it publishes the next smaller label. *)
Theorem thresholds_are_inclusive_lower_ends :
  (forall u : option Overrides,
      let s := Richer.sizes_of u in
      let at_ := fun w => Richer.screenSize (Richer.ScreenSizeProvider u w) in
      ordered (md s) (lg s) (xl s) (xxl s) Richer.MAX_SAFE_INTEGER ->
      at_ (xxl s) = ScreenSize.xxl /\ at_ (xxl s - 1) = ScreenSize.xl /\
      at_ (xl s) = ScreenSize.xl /\ at_ (xl s - 1) = ScreenSize.lg /\
      at_ (lg s) = ScreenSize.lg /\ at_ (lg s - 1) = ScreenSize.md /\
      at_ (md s) = ScreenSize.md /\ at_ (md s - 1) = ScreenSize.sm)
  /\
  (forall u : option Overrides,
      let s := Legacy.sizes_of u in
      let at_ := fun w => Legacy.screenSize (Legacy.ScreenSizeProvider u w) in
      ordered (Legacy.sizes.md s) (Legacy.sizes.lg s) (Legacy.sizes.xl s)
        (Legacy.sizes.xxl s) Legacy.MAX_SAFE_INTEGER ->
      at_ (Legacy.sizes.xxl s) = ScreenSize.xxl /\
      at_ (Legacy.sizes.xxl s - 1) = ScreenSize.xl /\
      at_ (Legacy.sizes.xl s) = ScreenSize.xl /\
      at_ (Legacy.sizes.xl s - 1) = ScreenSize.lg /\
      at_ (Legacy.sizes.lg s) = ScreenSize.lg /\
      at_ (Legacy.sizes.lg s - 1) = ScreenSize.md /\
      at_ (Legacy.sizes.md s) = ScreenSize.md /\
      at_ (Legacy.sizes.md s - 1) = ScreenSize.sm).
Proof.
  split; intros u s at_ Hord; subst at_; cbv beta.
  - unfold Richer.ScreenSizeProvider; cbn [Richer.screenSize]. fold s.
    assert (Hord' := Hord). destruct Hord' as (? & ? & ? & ?).
    rewrite !richer_label_classify by (try assumption; lia).
    unfold classify. repeat split; by_cases.
  - unfold Legacy.ScreenSizeProvider; cbn [Legacy.screenSize]. fold s.
    assert (Hord' := Hord). destruct Hord' as (? & ? & ? & ?).
    rewrite !legacy_label_classify by (try assumption; lia).
    unfold classify. repeat split; by_cases.
Qed.

Lemma thresholds_are_inclusive_lower_ends_witness :
  Richer.screenSize (Richer.ScreenSizeProvider (Some md_900) 900)
  = ScreenSize.md /\
  Richer.screenSize (Richer.ScreenSizeProvider (Some md_900) 899)
  = ScreenSize.sm /\
  Legacy.screenSize (Legacy.ScreenSizeProvider (Some md_900) 900)
  = ScreenSize.md /\
  Legacy.screenSize (Legacy.ScreenSizeProvider (Some md_900) 899)
  = ScreenSize.sm.
Proof.
  assert (HR : ordered 900 1024 1280 1536 Richer.MAX_SAFE_INTEGER)
    by (vm_compute; repeat split; discriminate).
  assert (HL : ordered 900 1024 1280 1536 Legacy.MAX_SAFE_INTEGER)
    by (vm_compute; repeat split; discriminate).
  pose proof (proj1 thresholds_are_inclusive_lower_ends (Some md_900) HR) as R.
  pose proof (proj2 thresholds_are_inclusive_lower_ends (Some md_900) HL) as L.
  cbv zeta beta in R, L.
  split; [exact (proj1 (proj2 (proj2 (proj2 (proj2 (proj2 R)))))) |].
  split; [exact (proj2 (proj2 (proj2 (proj2 (proj2 (proj2 (proj2 R))))))) |].
  split; [exact (proj1 (proj2 (proj2 (proj2 (proj2 (proj2 L)))))) |].
  exact (proj2 (proj2 (proj2 (proj2 (proj2 (proj2 (proj2 L))))))).
Defined.

(** ** Beyond the legacy sentinel *)

Lemma legacy_above_sentinel (s : Legacy.sizes.t) (w : Z) :
  ordered (Legacy.sizes.md s) (Legacy.sizes.lg s) (Legacy.sizes.xl s)
    (Legacy.sizes.xxl s) Legacy.MAX_SAFE_INTEGER ->
  Legacy.MAX_SAFE_INTEGER < w ->
  watch (Legacy.queries s) w = none_set.
Proof.
  unfold ordered, none_set, watch, Legacy.queries, useMediaQuery.
  cbn [xxl xl lg md sm maxWidth minWidth].
  generalize Legacy.MAX_SAFE_INTEGER; intros top.
  destruct s as [? ? ? ?];
    cbn [Legacy.sizes.xxl Legacy.sizes.xl Legacy.sizes.lg Legacy.sizes.md].
  intros Hord Hw.
  by_cases.
Qed.

(** X6. The two providers resolve alike at every width up to 99999 (also a
    negative one) whatever the overrides.  Beyond it, with ordered
    thresholds, no legacy watch holds: at every width in
    (99999, 2^53 - 1] the legacy provider publishes ["sm"] and the current
    one ["xxl"]. *)
Theorem providers_agree_exactly_up_to_legacy_sentinel :
  (forall (u : option Overrides) (w : Z),
      w <= 99999 ->
      Legacy.screenSize (Legacy.ScreenSizeProvider u w)
      = Richer.screenSize (Richer.ScreenSizeProvider u w))
  /\
  (forall (u : option Overrides) (w : Z),
      let s := Legacy.sizes_of u in
      ordered (Legacy.sizes.md s) (Legacy.sizes.lg s) (Legacy.sizes.xl s)
        (Legacy.sizes.xxl s) 99999 ->
      99999 < w <= Richer.MAX_SAFE_INTEGER ->
      watch (Legacy.queries s) w = none_set /\
      Legacy.screenSize (Legacy.ScreenSizeProvider u w) = ScreenSize.sm /\
      Richer.screenSize (Richer.ScreenSizeProvider u w) = ScreenSize.xxl).
Proof.
  split.
  - intros u w Hw. apply legacy_richer_agree. exact Hw.
  - intros u w s Hord [Hlo Hhi].
    assert (Hnone : watch (Legacy.queries s) w = none_set)
      by (apply legacy_above_sentinel; assumption).
    split; [exact Hnone |].
    split.
    + unfold Legacy.ScreenSizeProvider; cbn [Legacy.screenSize]. fold s.
      rewrite Hnone. reflexivity.
    + unfold Richer.ScreenSizeProvider; cbn [Richer.screenSize].
      unfold Richer.findLargestScreenSizeMatch, watch, Richer.queries,
        useMediaQuery.
      cbn [xxl xl lg md sm maxWidth minWidth].
      destruct (legacy_richer_thresholds u) as (<- & _).
      fold s. destruct Hord as (_ & _ & _ & Htop).
      replace (Legacy.sizes.xxl s <=? w) with true
        by (symmetry; apply Z.leb_le; lia).
      replace (w <=? Richer.MAX_SAFE_INTEGER) with true
        by (symmetry; apply Z.leb_le; lia).
      reflexivity.
Qed.

Lemma providers_agree_exactly_up_to_legacy_sentinel_witness :
  Legacy.screenSize (Legacy.ScreenSizeProvider (Some md_900) (-5))
  = Richer.screenSize (Richer.ScreenSizeProvider (Some md_900) (-5)) /\
  Legacy.screenSize (Legacy.ScreenSizeProvider None 120000) = ScreenSize.sm /\
  Richer.screenSize (Richer.ScreenSizeProvider None 120000) = ScreenSize.xxl.
Proof.
  split.
  - apply (proj1 providers_agree_exactly_up_to_legacy_sentinel
             (Some md_900) (-5)).
    lia.
  - apply (proj2 providers_agree_exactly_up_to_legacy_sentinel None 120000);
      vm_compute; repeat split; discriminate.
Defined.

(** ** Overrides *)

Lemma or_default_again (v : option number) (d : Z) :
  or_default (Some (Num (or_default v d))) d = or_default v d.
Proof.
  destruct v as [[z |] |]; cbn.
  - destruct (Z.eqb_spec z 0) as [-> | Hz].
    + destruct (Z.eqb_spec d 0); congruence.
    + destruct (Z.eqb_spec z 0); congruence.
  - destruct (Z.eqb_spec d 0); congruence.
  - destruct (Z.eqb_spec d 0); congruence.
Qed.

(** X7. No overrides record makes a resolved threshold [0]: every entry of
    the table of the current provider, and every entry of the four-entry
    table of the legacy provider, is different from [0]. *)
Theorem resolved_thresholds_are_not_zero :
  forall (u : option Overrides) (k : ScreenSize.t),
    get k (Richer.sizes_of u) <> 0 /\
    Legacy.sizes.get k (Legacy.sizes_of u) <> Some 0.
Proof.
  intros u k.
  split.
  - destruct k; cbn [get Richer.sizes_of xxl xl lg md sm];
      apply or_default_nonzero; discriminate.
  - destruct k;
      cbn [Legacy.sizes.get Legacy.sizes_of Legacy.sizes.xxl Legacy.sizes.xl
             Legacy.sizes.lg Legacy.sizes.md];
      try discriminate;
      intros H; injection H;
      apply or_default_nonzero; discriminate.
Qed.

(** X8. Resolution is idempotent: a provider given, as its [sizes] prop,
    the breakpoints another current provider published resolves the very
    same table and publishes the very same value; the legacy provider
    given that table resolves the same four thresholds. *)
Theorem published_breakpoints_resolve_to_themselves :
  forall (u : option Overrides) (w : Z),
    let v := Richer.ScreenSizeProvider u w in
    Richer.sizes_of (Some (as_overrides (Richer.breakpoints v)))
    = Richer.sizes_of u /\
    Richer.ScreenSizeProvider (Some (as_overrides (Richer.breakpoints v))) w
    = v /\
    Legacy.sizes_of (Some (as_overrides (Richer.breakpoints v)))
    = Legacy.sizes_of u.
Proof.
  intros u w v; subst v.
  assert (Hs : Richer.sizes_of
                 (Some (as_overrides (Richer.sizes_of u)))
               = Richer.sizes_of u).
  { unfold Richer.sizes_of, as_overrides, opt_get.
    cbn [get xxl xl lg md sm].
    rewrite !or_default_again. reflexivity. }
  split; [exact Hs |].
  split.
  - unfold Richer.ScreenSizeProvider. cbn [Richer.breakpoints].
    rewrite Hs. reflexivity.
  - unfold Richer.ScreenSizeProvider. cbn [Richer.breakpoints].
    unfold Legacy.sizes_of, Richer.sizes_of, as_overrides, opt_get.
    cbn [get xxl xl lg md sm Richer.defaultSizes].
    rewrite !or_default_again. reflexivity.
Qed.

Lemma all_falsy_sizes (u : option Overrides) :
  (forall k, falsy (opt_get k u)) ->
  Richer.sizes_of u = Richer.defaultSizes /\
  Legacy.sizes_of u = Legacy.sizes_of None.
Proof.
  intros H.
  unfold Richer.sizes_of, Legacy.sizes_of.
  rewrite !or_default_falsy by apply H.
  split; reflexivity.
Qed.

(** X9. An overrides record whose every property is missing or falsy
    ([{}], [{ xl: 0 }], ...) behaves as no overrides at all: both providers
    publish what they publish without a [sizes] prop, and the breakpoints
    of the current provider are those of the context's default value. *)
Theorem falsy_overrides_are_no_overrides :
  forall (u : option Overrides) (w : Z),
    (forall k, falsy (opt_get k u)) ->
    Richer.ScreenSizeProvider u w = Richer.ScreenSizeProvider None w /\
    Legacy.ScreenSizeProvider u w = Legacy.ScreenSizeProvider None w /\
    Richer.breakpoints (Richer.ScreenSizeProvider u w)
    = Richer.breakpoints (defaultValue Richer.ScreenSizeContext).
Proof.
  intros u w H.
  destruct (all_falsy_sizes u H) as [HR HL].
  unfold Richer.ScreenSizeProvider, Legacy.ScreenSizeProvider.
  rewrite HR, HL.
  repeat split.
Qed.

Lemma falsy_overrides_are_no_overrides_witness :
  Richer.ScreenSizeProvider (Some xl_0) 1300
  = Richer.ScreenSizeProvider None 1300 /\
  Legacy.ScreenSizeProvider (Some xl_0) 1300
  = Legacy.ScreenSizeProvider None 1300.
Proof.
  assert (H : forall k, falsy (opt_get k (Some xl_0)))
    by (intros []; cbn; auto).
  pose proof (falsy_overrides_are_no_overrides (Some xl_0) 1300 H) as R.
  split; [exact (proj1 R) | exact (proj1 (proj2 R))].
Defined.

(** X10. The legacy provider never reads an [sm] override: overrides that
    agree on [xxl], [xl], [lg] and [md] resolve the same table and publish
    the same value at every width. *)
Theorem legacy_ignores_sm_override :
  forall (u1 u2 : option Overrides) (w : Z),
    (forall k, k <> ScreenSize.sm -> opt_get k u1 = opt_get k u2) ->
    Legacy.sizes_of u1 = Legacy.sizes_of u2 /\
    Legacy.ScreenSizeProvider u1 w = Legacy.ScreenSizeProvider u2 w.
Proof.
  intros u1 u2 w H.
  assert (Hs : Legacy.sizes_of u1 = Legacy.sizes_of u2).
  { unfold Legacy.sizes_of.
    rewrite (H ScreenSize.xxl), (H ScreenSize.xl), (H ScreenSize.lg),
      (H ScreenSize.md) by discriminate.
    reflexivity. }
  split; [exact Hs |].
  unfold Legacy.ScreenSizeProvider. rewrite Hs. reflexivity.
Qed.

Lemma legacy_ignores_sm_override_witness :
  Legacy.sizes_of (Some sm_500) = Legacy.sizes_of None /\
  Legacy.ScreenSizeProvider (Some sm_500) 600
  = Legacy.ScreenSizeProvider None 600.
Proof.
  apply (legacy_ignores_sm_override (Some sm_500) None 600).
  intros k Hk. destruct k; try reflexivity. contradiction.
Defined.

(** ** Thresholds out of order *)

(** X11. A label whose range is empty is never published: when a resolved
    threshold is not below the next larger one ([xxl <= xl], [xl <= lg] or
    [lg <= md]), the provider publishes its label ([xl], [lg] or [md]) at
    no width, in either provider. *)
Theorem empty_range_label_is_never_published :
  forall (u : option Overrides) (w : Z),
    (let s := Richer.sizes_of u in
     let r := Richer.screenSize (Richer.ScreenSizeProvider u w) in
     (xxl s <= xl s -> r <> ScreenSize.xl) /\
     (xl s <= lg s -> r <> ScreenSize.lg) /\
     (lg s <= md s -> r <> ScreenSize.md))
    /\
    (let s := Legacy.sizes_of u in
     let r := Legacy.screenSize (Legacy.ScreenSizeProvider u w) in
     (Legacy.sizes.xxl s <= Legacy.sizes.xl s -> r <> ScreenSize.xl) /\
     (Legacy.sizes.xl s <= Legacy.sizes.lg s -> r <> ScreenSize.lg) /\
     (Legacy.sizes.lg s <= Legacy.sizes.md s -> r <> ScreenSize.md)).
Proof.
  intros u w.
  split; cbv zeta.
  - unfold Richer.ScreenSizeProvider; cbn [Richer.screenSize].
    generalize (Richer.sizes_of u); intros s.
    open_tables. generalize Richer.MAX_SAFE_INTEGER; intros top.
    destruct s as [? ? ? ? ?]; cbn [xxl xl lg md sm].
    repeat split; intros Hle; by_cases.
  - unfold Legacy.ScreenSizeProvider; cbn [Legacy.screenSize].
    generalize (Legacy.sizes_of u); intros s.
    open_tables. generalize Legacy.MAX_SAFE_INTEGER; intros top.
    destruct s as [? ? ? ?];
      cbn [Legacy.sizes.xxl Legacy.sizes.xl Legacy.sizes.lg Legacy.sizes.md].
    repeat split; intros Hle; by_cases.
Qed.

Lemma empty_range_label_is_never_published_witness :
  xxl (Richer.sizes_of (Some xl_2000)) <= xl (Richer.sizes_of (Some xl_2000)) /\
  Richer.screenSize (Richer.ScreenSizeProvider (Some xl_2000) 2100)
  <> ScreenSize.xl /\
  Legacy.screenSize (Legacy.ScreenSizeProvider (Some xl_2000) 2100)
  <> ScreenSize.xl.
Proof.
  assert (H : xxl (Richer.sizes_of (Some xl_2000))
              <= xl (Richer.sizes_of (Some xl_2000)))
    by (vm_compute; discriminate).
  destruct (empty_range_label_is_never_published (Some xl_2000) 2100)
    as [[R _] [L _]].
  split; [exact H |].
  split; [exact (R H) | exact (L H)].
Defined.

(** ** The cascade *)

(** X12. The resolver returns [k] exactly when no flag above [k] is set
    and [k] is either ["sm"] or a set flag; both copies. *)
Theorem findLargestScreenSizeMatch_characterised :
  forall (m : Matches) (k : ScreenSize.t),
    (Richer.findLargestScreenSizeMatch m = k <->
     (forall k', (ScreenSize.rank k < ScreenSize.rank k')%nat ->
                 get k' m = false) /\
     (k = ScreenSize.sm \/ get k m = true))
    /\
    (Legacy.findLargestScreenSizeMatch m = k <->
     (forall k', (ScreenSize.rank k < ScreenSize.rank k')%nat ->
                 get k' m = false) /\
     (k = ScreenSize.sm \/ get k m = true)).
Proof.
  intros m k.
  enough (H : Richer.findLargestScreenSizeMatch m = k <->
              (forall k', (ScreenSize.rank k < ScreenSize.rank k')%nat ->
                          get k' m = false) /\
              (k = ScreenSize.sm \/ get k m = true))
    by (split; exact H).
  split.
  - intros <-.
    flags m; (split; [intros [] Hlt; cbn in *; try reflexivity; lia | auto]).
  - intros [Habove Hk].
    pose proof (Habove ScreenSize.xxl) as Hxxl.
    pose proof (Habove ScreenSize.xl) as Hxl.
    pose proof (Habove ScreenSize.lg) as Hlg.
    pose proof (Habove ScreenSize.md) as Hmd.
    destruct k, m as [[] [] [] [] []]; cbn in *;
      try reflexivity;
      try (destruct Hk as [Hk | Hk]; discriminate Hk);
      try (discriminate Hxxl; lia);
      try (discriminate Hxl; lia);
      try (discriminate Hlg; lia);
      try (discriminate Hmd; lia).
Qed.

Lemma findLargestScreenSizeMatch_characterised_witness :
  Richer.findLargestScreenSizeMatch xl_md_sm_set = ScreenSize.xl /\
  Legacy.findLargestScreenSizeMatch xl_md_sm_set = ScreenSize.xl.
Proof.
  destruct (findLargestScreenSizeMatch_characterised xl_md_sm_set ScreenSize.xl)
    as [[_ R] [_ L]].
  assert (H : (forall k', (ScreenSize.rank ScreenSize.xl < ScreenSize.rank k')%nat ->
                          get k' xl_md_sm_set = false) /\
              (ScreenSize.xl = ScreenSize.sm \/
               get ScreenSize.xl xl_md_sm_set = true)).
  { split; [| right; reflexivity].
    intros [] Hlt; cbn in *; try reflexivity; lia. }
  split; [exact (R H) | exact (L H)].
Defined.

(** * Fractional widths and thresholds *)

Lemma Qle_bool_spec (x y : Q) :
  BoolSpec (x <= y)%Q (y < x)%Q (Qle_bool x y).
Proof.
  destruct (Qle_bool x y) eqn:E; constructor.
  - apply Qle_bool_iff; exact E.
  - apply Qnot_le_lt. intros H. apply Qle_bool_iff in H. congruence.
Qed.

Ltac qleb_case :=
  match goal with
  | |- context [Qle_bool ?a ?b] => destruct (Qle_bool_spec a b); try lra
  end.

Ltac open_q_tables :=
  unfold Frac.ordered, Frac.classify, Frac.in_a_gap, Frac.in_gap, none_set,
    Richer.findLargestScreenSizeMatch, Legacy.findLargestScreenSizeMatch,
    Frac.watch, RicherQ.queries, LegacyQ.queries, Frac.useMediaQuery;
  cbn [get xxl xl lg md sm Frac.maxWidth Frac.minWidth andb].

Ltac q_reduce :=
  cbn [get xxl xl lg md sm andb orb negb ScreenSize.rank].

(** ** Tables of arbitrary thresholds *)

Lemma richerQ_label_or_gap (s : PerSize Q) (w : Q) :
  (w <= RicherQ.MAX_SAFE_INTEGER)%Q ->
  let m := Frac.watch (RicherQ.queries s) w in
  get (Richer.findLargestScreenSizeMatch m) m = true \/
  (m = none_set /\
   Frac.in_a_gap (md s) (lg s) (xl s) (xxl s) w = true).
Proof.
  cbv zeta. open_q_tables.
  generalize RicherQ.MAX_SAFE_INTEGER; intros top.
  destruct s as [a b c d e]; cbn [xxl xl lg md sm]. intros Hw.
  repeat qleb_case; q_reduce;
    first [left; reflexivity | right; split; reflexivity].
Qed.

Lemma legacyQ_label_or_gap (s : LegacyQ.sizes.t) (w : Q) :
  (w <= LegacyQ.MAX_SAFE_INTEGER)%Q ->
  let m := Frac.watch (LegacyQ.queries s) w in
  get (Legacy.findLargestScreenSizeMatch m) m = true \/
  (m = none_set /\
   Frac.in_a_gap (LegacyQ.sizes.md s) (LegacyQ.sizes.lg s)
     (LegacyQ.sizes.xl s) (LegacyQ.sizes.xxl s) w = true).
Proof.
  cbv zeta. open_q_tables.
  generalize LegacyQ.MAX_SAFE_INTEGER; intros top.
  destruct s as [a b c d];
    cbn [LegacyQ.sizes.xxl LegacyQ.sizes.xl LegacyQ.sizes.lg LegacyQ.sizes.md].
  intros Hw.
  repeat qleb_case; q_reduce;
    first [left; reflexivity | right; split; reflexivity].
Qed.

(** X1. Whatever the overrides, ordered or not, whole or fractional, at
    every width up to the sentinel either the media query of the published
    label matches, or no query matches at all, ["sm"] is published by
    fallback, and the width lies strictly between [t - 1] and [t] for one
    of the thresholds [t]. *)
Theorem published_label_matches_unless_in_a_gap :
  (forall (u : option Frac.Overrides) (w : Q),
      (w <= RicherQ.MAX_SAFE_INTEGER)%Q ->
      let s := RicherQ.sizes_of u in
      let m := Frac.watch (RicherQ.queries s) w in
      let r := RicherQ.screenSize (RicherQ.ScreenSizeProvider u w) in
      get r m = true \/
      (m = none_set /\ r = ScreenSize.sm /\
       Frac.in_a_gap (md s) (lg s) (xl s) (xxl s) w = true))
  /\
  (forall (u : option Frac.Overrides) (w : Q),
      (w <= LegacyQ.MAX_SAFE_INTEGER)%Q ->
      let s := LegacyQ.sizes_of u in
      let m := Frac.watch (LegacyQ.queries s) w in
      let r := Legacy.screenSize (LegacyQ.ScreenSizeProvider u w) in
      get r m = true \/
      (m = none_set /\ r = ScreenSize.sm /\
       Frac.in_a_gap (LegacyQ.sizes.md s) (LegacyQ.sizes.lg s)
         (LegacyQ.sizes.xl s) (LegacyQ.sizes.xxl s) w = true)).
Proof.
  split; intros u w Hw s m r; subst r.
  - unfold RicherQ.ScreenSizeProvider; cbn [RicherQ.screenSize].
    fold s; fold m.
    destruct (richerQ_label_or_gap s w Hw) as [H | [Hnone Hgap]].
    + left; exact H.
    + right. fold m in Hnone.
      split; [exact Hnone |]. split; [rewrite Hnone; reflexivity | exact Hgap].
  - unfold LegacyQ.ScreenSizeProvider; cbn [Legacy.screenSize].
    fold s; fold m.
    destruct (legacyQ_label_or_gap s w Hw) as [H | [Hnone Hgap]].
    + left; exact H.
    + right. fold m in Hnone.
      split; [exact Hnone |]. split; [rewrite Hnone; reflexivity | exact Hgap].
Qed.

Lemma published_label_matches_unless_in_a_gap_witness :
  Frac.watch (RicherQ.queries (RicherQ.sizes_of (Some md_768_5))) 768
  = none_set /\
  RicherQ.screenSize (RicherQ.ScreenSizeProvider (Some md_768_5) 768)
  = ScreenSize.sm /\
  Frac.watch (LegacyQ.queries (LegacyQ.sizes_of None)) (2047 # 2)
  = none_set /\
  Legacy.screenSize (LegacyQ.ScreenSizeProvider None (2047 # 2))
  = ScreenSize.sm.
Proof.
  assert (HR : (768 <= RicherQ.MAX_SAFE_INTEGER)%Q)
    by (vm_compute; discriminate).
  assert (HL : (2047 # 2 <= LegacyQ.MAX_SAFE_INTEGER)%Q)
    by (vm_compute; discriminate).
  pose proof (proj1 published_label_matches_unless_in_a_gap
                (Some md_768_5) 768%Q HR) as R.
  pose proof (proj2 published_label_matches_unless_in_a_gap
                None (2047 # 2) HL) as L.
  cbv zeta in R, L.
  destruct R as [R | (R1 & R2 & _)]; [vm_compute in R; discriminate R |].
  destruct L as [L | (L1 & L2 & _)]; [vm_compute in L; discriminate L |].
  repeat split; assumption.
Defined.

(** ** Ordered thresholds *)

Lemma richerQ_label_classify (s : PerSize Q) (w : Q) :
  Frac.ordered (md s) (lg s) (xl s) (xxl s) RicherQ.MAX_SAFE_INTEGER ->
  (w <= RicherQ.MAX_SAFE_INTEGER)%Q ->
  Richer.findLargestScreenSizeMatch (Frac.watch (RicherQ.queries s) w)
  = if Frac.in_a_gap (md s) (lg s) (xl s) (xxl s) w
    then ScreenSize.sm
    else Frac.classify (md s) (lg s) (xl s) (xxl s) w.
Proof.
  open_q_tables.
  generalize RicherQ.MAX_SAFE_INTEGER; intros top.
  destruct s as [a b c d e]; cbn [xxl xl lg md sm]. intros Hord Hw.
  repeat qleb_case; q_reduce; reflexivity.
Qed.

Lemma legacyQ_label_classify (s : LegacyQ.sizes.t) (w : Q) :
  Frac.ordered (LegacyQ.sizes.md s) (LegacyQ.sizes.lg s)
    (LegacyQ.sizes.xl s) (LegacyQ.sizes.xxl s) LegacyQ.MAX_SAFE_INTEGER ->
  (w <= LegacyQ.MAX_SAFE_INTEGER)%Q ->
  Legacy.findLargestScreenSizeMatch (Frac.watch (LegacyQ.queries s) w)
  = if Frac.in_a_gap (LegacyQ.sizes.md s) (LegacyQ.sizes.lg s)
         (LegacyQ.sizes.xl s) (LegacyQ.sizes.xxl s) w
    then ScreenSize.sm
    else Frac.classify (LegacyQ.sizes.md s) (LegacyQ.sizes.lg s)
           (LegacyQ.sizes.xl s) (LegacyQ.sizes.xxl s) w.
Proof.
  open_q_tables.
  generalize LegacyQ.MAX_SAFE_INTEGER; intros top.
  destruct s as [a b c d];
    cbn [LegacyQ.sizes.xxl LegacyQ.sizes.xl LegacyQ.sizes.lg LegacyQ.sizes.md].
  intros Hord Hw.
  repeat qleb_case; q_reduce; reflexivity.
Qed.

Lemma classifyQ_monotone (d c b a w1 w2 : Q) :
  (d < c)%Q -> (c < b)%Q -> (b < a)%Q -> (w1 <= w2)%Q ->
  (ScreenSize.rank (Frac.classify d c b a w1)
   <= ScreenSize.rank (Frac.classify d c b a w2))%nat.
Proof.
  intros Hd Hc Hb Hw. unfold Frac.classify.
  repeat qleb_case; q_reduce; lia.
Qed.

(** X3. With thresholds [md < lg < xl < xxl <= UNBOUNDED_MAX], whole or
    fractional, at every width up to the sentinel a provider publishes the
    label of the largest threshold the width reaches (["sm"] when it
    reaches none), unless the width lies strictly between [t - 1] and [t]
    for a threshold [t]: there it publishes ["sm"]. *)
Theorem provider_classifies_outside_the_gaps :
  (forall (u : option Frac.Overrides) (w : Q),
      let s := RicherQ.sizes_of u in
      Frac.ordered (md s) (lg s) (xl s) (xxl s) RicherQ.MAX_SAFE_INTEGER ->
      (w <= RicherQ.MAX_SAFE_INTEGER)%Q ->
      RicherQ.screenSize (RicherQ.ScreenSizeProvider u w)
      = if Frac.in_a_gap (md s) (lg s) (xl s) (xxl s) w
        then ScreenSize.sm
        else Frac.classify (md s) (lg s) (xl s) (xxl s) w)
  /\
  (forall (u : option Frac.Overrides) (w : Q),
      let s := LegacyQ.sizes_of u in
      Frac.ordered (LegacyQ.sizes.md s) (LegacyQ.sizes.lg s)
        (LegacyQ.sizes.xl s) (LegacyQ.sizes.xxl s) LegacyQ.MAX_SAFE_INTEGER ->
      (w <= LegacyQ.MAX_SAFE_INTEGER)%Q ->
      Legacy.screenSize (LegacyQ.ScreenSizeProvider u w)
      = if Frac.in_a_gap (LegacyQ.sizes.md s) (LegacyQ.sizes.lg s)
             (LegacyQ.sizes.xl s) (LegacyQ.sizes.xxl s) w
        then ScreenSize.sm
        else Frac.classify (LegacyQ.sizes.md s) (LegacyQ.sizes.lg s)
               (LegacyQ.sizes.xl s) (LegacyQ.sizes.xxl s) w).
Proof.
  split; intros u w s Hord Hw.
  - apply richerQ_label_classify; assumption.
  - apply legacyQ_label_classify; assumption.
Qed.

Lemma provider_classifies_outside_the_gaps_witness :
  RicherQ.screenSize (RicherQ.ScreenSizeProvider None (2047 # 2))
  = ScreenSize.sm /\
  RicherQ.screenSize (RicherQ.ScreenSizeProvider None 1000) = ScreenSize.md /\
  Legacy.screenSize (LegacyQ.ScreenSizeProvider None (2047 # 2))
  = ScreenSize.sm /\
  Legacy.screenSize (LegacyQ.ScreenSizeProvider None 1000) = ScreenSize.md.
Proof.
  assert (HR : Frac.ordered 768 1024 1280 1536 RicherQ.MAX_SAFE_INTEGER)
    by (vm_compute; repeat split; discriminate).
  assert (HL : Frac.ordered 768 1024 1280 1536 LegacyQ.MAX_SAFE_INTEGER)
    by (vm_compute; repeat split; discriminate).
  destruct provider_classifies_outside_the_gaps as [R L].
  split; [rewrite (R None (2047 # 2) HR) by (vm_compute; discriminate);
          reflexivity |].
  split; [rewrite (R None 1000%Q HR) by (vm_compute; discriminate);
          reflexivity |].
  split; [rewrite (L None (2047 # 2) HL) by (vm_compute; discriminate);
          reflexivity |].
  rewrite (L None 1000%Q HL) by (vm_compute; discriminate); reflexivity.
Defined.

(** X4. With ordered thresholds, whole or fractional, the published label
    is monotone in the width as long as the larger width lies in no gap:
    for [w1 <= w2 <= UNBOUNDED_MAX] with [w2] not strictly between [t - 1]
    and [t] for any threshold [t], the label at [w1] does not outrank the
    label at [w2]. *)
Theorem screen_size_monotone_outside_the_gaps :
  (forall (u : option Frac.Overrides) (w1 w2 : Q),
      let s := RicherQ.sizes_of u in
      Frac.ordered (md s) (lg s) (xl s) (xxl s) RicherQ.MAX_SAFE_INTEGER ->
      (w1 <= w2)%Q -> (w2 <= RicherQ.MAX_SAFE_INTEGER)%Q ->
      Frac.in_a_gap (md s) (lg s) (xl s) (xxl s) w2 = false ->
      (ScreenSize.rank (RicherQ.screenSize (RicherQ.ScreenSizeProvider u w1))
       <= ScreenSize.rank
            (RicherQ.screenSize (RicherQ.ScreenSizeProvider u w2)))%nat)
  /\
  (forall (u : option Frac.Overrides) (w1 w2 : Q),
      let s := LegacyQ.sizes_of u in
      Frac.ordered (LegacyQ.sizes.md s) (LegacyQ.sizes.lg s)
        (LegacyQ.sizes.xl s) (LegacyQ.sizes.xxl s) LegacyQ.MAX_SAFE_INTEGER ->
      (w1 <= w2)%Q -> (w2 <= LegacyQ.MAX_SAFE_INTEGER)%Q ->
      Frac.in_a_gap (LegacyQ.sizes.md s) (LegacyQ.sizes.lg s)
        (LegacyQ.sizes.xl s) (LegacyQ.sizes.xxl s) w2 = false ->
      (ScreenSize.rank (Legacy.screenSize (LegacyQ.ScreenSizeProvider u w1))
       <= ScreenSize.rank
            (Legacy.screenSize (LegacyQ.ScreenSizeProvider u w2)))%nat).
Proof.
  split; intros u w1 w2 s Hord H12 H2 Hgap.
  - unfold RicherQ.ScreenSizeProvider; cbn [RicherQ.screenSize]. fold s.
    rewrite !richerQ_label_classify by (try assumption; lra).
    rewrite Hgap.
    destruct (Frac.in_a_gap (md s) (lg s) (xl s) (xxl s) w1).
    + cbn. lia.
    + destruct Hord as (? & ? & ? & ?). apply classifyQ_monotone; assumption.
  - unfold LegacyQ.ScreenSizeProvider; cbn [Legacy.screenSize]. fold s.
    rewrite !legacyQ_label_classify by (try assumption; lra).
    rewrite Hgap.
    destruct (Frac.in_a_gap (LegacyQ.sizes.md s) (LegacyQ.sizes.lg s)
                (LegacyQ.sizes.xl s) (LegacyQ.sizes.xxl s) w1).
    + cbn. lia.
    + destruct Hord as (? & ? & ? & ?). apply classifyQ_monotone; assumption.
Qed.

Lemma screen_size_monotone_outside_the_gaps_witness :
  (ScreenSize.rank
     (RicherQ.screenSize (RicherQ.ScreenSizeProvider None (2047 # 2)))
   <= ScreenSize.rank
        (RicherQ.screenSize (RicherQ.ScreenSizeProvider None 1300)))%nat
  /\
  (ScreenSize.rank
     (Legacy.screenSize (LegacyQ.ScreenSizeProvider None (2047 # 2)))
   <= ScreenSize.rank
        (Legacy.screenSize (LegacyQ.ScreenSizeProvider None 1300)))%nat.
Proof.
  split.
  - apply (proj1 screen_size_monotone_outside_the_gaps None (2047 # 2) 1300%Q);
      vm_compute; repeat split; discriminate.
  - apply (proj2 screen_size_monotone_outside_the_gaps None (2047 # 2) 1300%Q);
      vm_compute; repeat split; discriminate.
Defined.

(** In a gap monotonicity is lost: with the default table 1000 resolves
    to ["md"] and the wider 1023.5 to ["sm"]. *)
Remark screen_size_drops_in_a_gap :
  RicherQ.screenSize (RicherQ.ScreenSizeProvider None 1000) = ScreenSize.md /\
  RicherQ.screenSize (RicherQ.ScreenSizeProvider None (2047 # 2))
  = ScreenSize.sm.
Proof. split; reflexivity. Qed.

(** ** Whole pixels *)

Lemma Qle_bool_inject_Z (a b : Z) :
  Qle_bool (inject_Z a) (inject_Z b) = (a <=? b).
Proof.
  apply eq_iff_eq_true.
  rewrite Qle_bool_iff, Z.leb_le, <- Zle_Qle. reflexivity.
Qed.

Lemma Qle_bool_inject_Z_pred (a b : Z) :
  Qle_bool (inject_Z a) (inject_Z b - 1) = (a <=? b - 1).
Proof.
  apply eq_iff_eq_true.
  rewrite Qle_bool_iff, Z.leb_le.
  unfold Qle, Qminus, Qplus, Qopp, inject_Z; cbn [Qnum Qden].
  lia.
Qed.

Lemma or_default_to_Q (v : option number) (d : Z) :
  Frac.or_default (option_map number_to_Q v) (inject_Z d)
  = inject_Z (or_default v d).
Proof.
  destruct v as [[z |] |]; cbn [option_map number_to_Q Frac.or_default or_default];
    try reflexivity.
  unfold Qeq_bool; cbn [Qnum Qden inject_Z].
  rewrite Z.mul_1_r. change (0 * 1) with 0.
  destruct (z =? 0); reflexivity.
Qed.

Lemma opt_get_to_Q (k : ScreenSize.t) (u : option Overrides) :
  Frac.opt_get k (overrides_to_Q u) = option_map number_to_Q (opt_get k u).
Proof. destruct u as [r |]; [destruct k |]; reflexivity. Qed.

Lemma in_gap_inject_Z (t w : Z) :
  Frac.in_gap (inject_Z t) (inject_Z w) = false.
Proof.
  unfold Frac.in_gap.
  rewrite Qle_bool_inject_Z_pred, Qle_bool_inject_Z.
  destruct (Z.leb_spec w (t - 1)), (Z.leb_spec t w);
    cbn [negb andb]; try reflexivity; lia.
Qed.

Lemma richer_sizes_to_Q (u : option Overrides) :
  RicherQ.sizes_of (overrides_to_Q u)
  = {| xxl := inject_Z (xxl (Richer.sizes_of u));
       xl := inject_Z (xl (Richer.sizes_of u));
       lg := inject_Z (lg (Richer.sizes_of u));
       md := inject_Z (md (Richer.sizes_of u));
       sm := inject_Z (sm (Richer.sizes_of u)) |}.
Proof.
  unfold RicherQ.sizes_of, Richer.sizes_of. cbn [xxl xl lg md sm].
  rewrite !opt_get_to_Q.
  change (xxl RicherQ.defaultSizes) with (inject_Z (xxl Richer.defaultSizes)).
  change (xl RicherQ.defaultSizes) with (inject_Z (xl Richer.defaultSizes)).
  change (lg RicherQ.defaultSizes) with (inject_Z (lg Richer.defaultSizes)).
  change (md RicherQ.defaultSizes) with (inject_Z (md Richer.defaultSizes)).
  change (sm RicherQ.defaultSizes) with (inject_Z (sm Richer.defaultSizes)).
  rewrite !or_default_to_Q. reflexivity.
Qed.

Lemma legacy_sizes_to_Q (u : option Overrides) :
  LegacyQ.sizes_of (overrides_to_Q u)
  = {| LegacyQ.sizes.xxl := inject_Z (Legacy.sizes.xxl (Legacy.sizes_of u));
       LegacyQ.sizes.xl := inject_Z (Legacy.sizes.xl (Legacy.sizes_of u));
       LegacyQ.sizes.lg := inject_Z (Legacy.sizes.lg (Legacy.sizes_of u));
       LegacyQ.sizes.md := inject_Z (Legacy.sizes.md (Legacy.sizes_of u)) |}.
Proof.
  unfold LegacyQ.sizes_of, Legacy.sizes_of.
  cbn [Legacy.sizes.xxl Legacy.sizes.xl Legacy.sizes.lg Legacy.sizes.md].
  rewrite !opt_get_to_Q.
  change 1536%Q with (inject_Z 1536).
  change 1280%Q with (inject_Z 1280).
  change 1024%Q with (inject_Z 1024).
  change 768%Q with (inject_Z 768).
  rewrite !or_default_to_Q. reflexivity.
Qed.

(** X13. On whole pixels the two readings coincide: for integer overrides
    and an integer width the five watches over the rationals are those over
    the integers, the width lies in no gap, and both providers publish the
    same label in either reading. *)
Theorem whole_pixels_read_alike :
  forall (u : option Overrides) (w : Z),
    (Frac.watch (RicherQ.queries (RicherQ.sizes_of (overrides_to_Q u)))
       (inject_Z w)
     = watch (Richer.queries (Richer.sizes_of u)) w /\
     RicherQ.screenSize
       (RicherQ.ScreenSizeProvider (overrides_to_Q u) (inject_Z w))
     = Richer.screenSize (Richer.ScreenSizeProvider u w) /\
     (let s := RicherQ.sizes_of (overrides_to_Q u) in
      Frac.in_a_gap (md s) (lg s) (xl s) (xxl s) (inject_Z w) = false))
    /\
    (Frac.watch (LegacyQ.queries (LegacyQ.sizes_of (overrides_to_Q u)))
       (inject_Z w)
     = watch (Legacy.queries (Legacy.sizes_of u)) w /\
     Legacy.screenSize
       (LegacyQ.ScreenSizeProvider (overrides_to_Q u) (inject_Z w))
     = Legacy.screenSize (Legacy.ScreenSizeProvider u w)).
Proof.
  intros u w.
  assert (HR : Frac.watch
                 (RicherQ.queries (RicherQ.sizes_of (overrides_to_Q u)))
                 (inject_Z w)
               = watch (Richer.queries (Richer.sizes_of u)) w).
  { rewrite richer_sizes_to_Q.
    unfold Frac.watch, watch, RicherQ.queries, Richer.queries,
      Frac.useMediaQuery, useMediaQuery, RicherQ.MAX_SAFE_INTEGER.
    cbn [xxl xl lg md sm Frac.maxWidth Frac.minWidth maxWidth minWidth].
    rewrite !Qle_bool_inject_Z, !Qle_bool_inject_Z_pred. reflexivity. }
  assert (HL : Frac.watch
                 (LegacyQ.queries (LegacyQ.sizes_of (overrides_to_Q u)))
                 (inject_Z w)
               = watch (Legacy.queries (Legacy.sizes_of u)) w).
  { rewrite legacy_sizes_to_Q.
    unfold Frac.watch, watch, LegacyQ.queries, Legacy.queries,
      Frac.useMediaQuery, useMediaQuery.
    change LegacyQ.MAX_SAFE_INTEGER with (inject_Z Legacy.MAX_SAFE_INTEGER).
    cbn [xxl xl lg md sm Frac.maxWidth Frac.minWidth maxWidth minWidth
           LegacyQ.sizes.xxl LegacyQ.sizes.xl LegacyQ.sizes.lg
           LegacyQ.sizes.md].
    rewrite !Qle_bool_inject_Z, !Qle_bool_inject_Z_pred. reflexivity. }
  split; [split; [exact HR | split] | split; [exact HL |]].
  - unfold RicherQ.ScreenSizeProvider, Richer.ScreenSizeProvider.
    cbn [RicherQ.screenSize Richer.screenSize]. rewrite HR. reflexivity.
  - cbv zeta. rewrite richer_sizes_to_Q. cbn [xxl xl lg md sm].
    unfold Frac.in_a_gap. rewrite !in_gap_inject_Z. reflexivity.
  - unfold LegacyQ.ScreenSizeProvider, Legacy.ScreenSizeProvider.
    cbn [Legacy.screenSize]. rewrite HL. reflexivity.
Qed.
